(** * Monte-Carlo comparison of d-separations: [graphs_py/gc_one_file.py]

    A shallow embedding of the script that compares the d-separation
    statements of a true graph and of an estimated graph, and the properties
    of its sampler, its separation calls and its confusion counters. *)

From Stdlib Require Import ZArith QArith Lia.
From stdpp Require Import base tactics option list sorting strings gmap.

Local Open Scope Z_scope.

(** ** Python values, exceptions and list operations *)

Module Py.

(** The exceptions the script can raise. *)
Inductive exn : Set :=
| ValueError
| IndexError
| NodeNotFound.

(** A computation that returns a value or raises. *)
Inductive result (A : Type) : Type :=
| Ok (a : A)
| Raise (e : exn).
Global Arguments Ok {A} a.
Global Arguments Raise {A} e.

Global Instance result_ret : MRet result := @Ok.
Global Instance result_bind : MBind result := λ A B f m,
  match m with
  | Ok a => f a
  | Raise e => Raise e
  end.

Global Instance exn_eq_dec : EqDecision exn.
Proof. solve_decision. Defined.

Definition is_Ok {A} (m : result A) : Prop := ∃ a, m = Ok a.

(** [for x in xs: acc = f(acc, x)], stopping at the first exception. *)
Fixpoint for_each {A S} (f : S → A → result S) (xs : list A) (acc : S) : result S :=
  match xs with
  | [] => Ok acc
  | x :: xs' => acc' ← f acc x; for_each f xs' acc'
  end.

(** [range(n)] *)
Definition range (n : Z) : list Z := Z.of_nat <$> seq 0 (Z.to_nat n).

(** [l[i]]: a negative index counts from the end, anything out of range
    raises IndexError. *)
Definition getitem {A} (l : list A) (i : Z) : result A :=
  let len := Z.of_nat (length l) in
  let j := if i <? 0 then len + i else i in
  if (j <? 0) || (len <=? j) then Raise IndexError
  else match l !! Z.to_nat j with
       | Some x => Ok x
       | None => Raise IndexError
       end.

(** [l.remove(x)]: drops the first occurrence of [x], ValueError if there
    is none. *)
Fixpoint list_remove `{EqDecision A} (x : A) (l : list A) : result (list A) :=
  match l with
  | [] => Raise ValueError
  | y :: l' =>
      if decide (x = y) then Ok l'
      else match list_remove x l' with
           | Ok r => Ok (y :: r)
           | Raise e => Raise e
           end
  end.

End Py.

Import Py.

(** ** The confusion aggregator (lines 123-141) *)

Record counters : Set := Counters { tp : Z; tn : Z; fp : Z; fn : Z }.

Definition counters_zero : counters := Counters 0 0 0 0.

(** What Python's [is True] looks at: the object itself.  The script applies
    it to the whole list [d_seps_true]; the bound of a single trial is a
    [bool]. *)
Inductive pyobj : Set :=
| PyBool (b : bool)
| PyList (l : list bool).

(** [v is True]: identity with the singleton [True]. *)
Definition is_True (v : pyobj) : bool :=
  match v with
  | PyBool true => true
  | _ => false
  end.

(** The body of the loop of line 128 at index [i]. *)
Definition classify (d_seps_true d_seps_est : list bool) (c : counters) (i : Z)
  : result counters :=
  vt ← getitem d_seps_true i;
  ve ← getitem d_seps_est i;
  if bool_decide (vt = ve) then
    if is_True (PyList d_seps_true) then Ok (Counters (tp c + 1) (tn c) (fp c) (fn c))
    else Ok (Counters (tp c) (tn c + 1) (fp c) (fn c))
  else
    if is_True (PyList d_seps_true) then Ok (Counters (tp c) (tn c) (fp c) (fn c + 1))
    else Ok (Counters (tp c) (tn c) (fp c + 1) (fn c)).

(** [for i in range(len(d_seps_true)): ...] from zeroed counters. *)
Definition accumulate (d_seps_true d_seps_est : list bool) : result counters :=
  for_each (classify d_seps_true d_seps_est)
           (range (Z.of_nat (length d_seps_true))) counters_zero.

(** The classification convention as the specification words it: the bucket
    is chosen by the verdicts of the trial itself. *)
Definition classify_convention (vt ve : bool) (c : counters) : counters :=
  match vt, ve with
  | true, true => Counters (tp c + 1) (tn c) (fp c) (fn c)
  | false, false => Counters (tp c) (tn c + 1) (fp c) (fn c)
  | true, false => Counters (tp c) (tn c) (fp c) (fn c + 1)
  | false, true => Counters (tp c) (tn c) (fp c + 1) (fn c)
  end.

Fixpoint accumulate_convention (d_seps_true d_seps_est : list bool) (c : counters)
  : counters :=
  match d_seps_true, d_seps_est with
  | vt :: ts, ve :: es => accumulate_convention ts es (classify_convention vt ve c)
  | _, _ => c
  end.

(** ** External collaborators *)

(** Nodes are named by strings. *)
Abbreviation node := string (only parsing).

(** networkx, as far as the script uses it: the node view of a graph object
    and the d-separation test, which raises NodeNotFound when one of the
    queried nodes is not in the graph.  The graph objects are the directed
    acyclic graphs the script unpickles. *)
Class Networkx : Type := {
  DiGraph : Type;
  nodes : DiGraph → list node;
  nodes_NoDup : ∀ G, NoDup (nodes G);
  d_separated : DiGraph → gset node → gset node → gset node → result bool;
  d_separated_unknown : ∀ G (x y z : gset node),
    ¬ (x ∪ y ∪ z ⊆ list_to_set (nodes G)) →
    d_separated G x y z = Raise NodeNotFound;
  d_separated_known : ∀ G (x y z : gset node),
    x ∪ y ∪ z ⊆ list_to_set (nodes G) → x ## y → x ## z → y ## z →
    is_Ok (d_separated G x y z)
}.

(** The three random sources of the script: the module [random], the global
    generator of [numpy.random] and a generator object made by
    [numpy.random.default_rng].  Each draw returns its value and the next
    state of its generator. *)
Class RandomLib : Type := {
  py_state : Type;
  np_state : Type;
  gen_state : Type;
  random_seed : Z → py_state;
  np_random_seed : Z → np_state;
  default_rng : Z → gen_state;
  (** [random.randint(a, b)] for [a <= b] *)
  randint_draw : Z → Z → py_state → Z * py_state;
  randint_draw_range : ∀ a b s, a ≤ b → a ≤ (randint_draw a b s).1 ≤ b;
  (** the position [numpy.random.choice(a, p=p)] picks in [a] *)
  choice_draw : list Q → np_state → nat * np_state;
  choice_draw_range : ∀ p s, p ≠ [] → ((choice_draw p s).1 < length p)%nat;
  (** [Generator.choice(pop, size=size, replace=False)] for [size <= pop] *)
  sample_draw : nat → nat → gen_state → list nat * gen_state;
  sample_draw_spec : ∀ pop size s, (size ≤ pop)%nat →
    length (sample_draw pop size s).1 = size
    ∧ NoDup (sample_draw pop size s).1
    ∧ Forall (λ i, (i < pop)%nat) (sample_draw pop size s).1
}.

(** Modelled from the spec: the binomial coefficient function
    ([scipy.special.comb], an external collaborator), by Pascal's rule. *)
Fixpoint binom (m k : nat) : nat :=
  match k, m with
  | O, _ => 1
  | S _, O => 0
  | S k', S m' => binom m' k' + binom m' k
  end.

(** [sp.comb(N, k)]: zero outside [0 <= k <= N]. *)
Definition comb (N k : Z) : Z :=
  if (N <? 0) || (k <? 0) || (N <? k) then 0
  else Z.of_nat (binom (Z.to_nat N) (Z.to_nat k)).

Definition sumQ (p : list Q) : Q := foldr Qplus 0%Q p.

(** Lines 84-86: the probabilities of the sizes of the conditioning set, for
    [n] predictors.  The quotients are exact rationals here. *)
Definition probs (n : Z) : list Q :=
  (λ i, inject_Z (comb (n - 1) i) / inject_Z (2 ^ (n - 1)))%Q <$> range n.

Section Random.
Context `{RandomLib}.

(** [random.randint(a, b)]: ValueError on an empty range. *)
Definition randint (a b : Z) (s : py_state) : result (Z * py_state) :=
  if b <? a then Raise ValueError else Ok (randint_draw a b s).

(** [np.random.choice(a, p=p)]: ValueError when [a] is empty, when [p] has
    another length, a negative entry or does not sum to one (exact
    arithmetic stands for numpy's tolerance). *)
Definition np_choice (a : list Z) (p : list Q) (s : np_state) : result (Z * np_state) :=
  if bool_decide (a = []) then Raise ValueError
  else if negb (bool_decide (length a = length p)) then Raise ValueError
  else if negb (forallb (Qle_bool 0) p) then Raise ValueError
  else if negb (Qeq_bool (sumQ p) 1) then Raise ValueError
  else
    let '(i, s') := choice_draw p s in
    x ← getitem a (Z.of_nat i);
    Ok (x, s').

(** [rng.choice(pop, size=size, replace=False)]: ValueError when the sample
    is larger than the population. *)
Definition gen_choice (pop size : Z) (s : gen_state) : result (list Z * gen_state) :=
  if (pop <? 0) || (size <? 0) || (pop <? size) then Raise ValueError
  else
    let '(l, s') := sample_draw (Z.to_nat pop) (Z.to_nat size) s in
    Ok (Z.of_nat <$> l, s').
End Random.

(** ** The evaluation table (lines 41-47) *)

Record dataframe : Set := DataFrame {
  columns : list string;
  rows : list (list string)
}.

Definition col_names : list string :=
  ["graph"; "target_node"; "d"; "method"; "mc";
   "true_total"; "false_total"; "dsep_share"; "TP"; "TN"; "FP"; "FN"; "TP_rate";
   "TN_rate"; "FP_rate"; "FN_rate"; "precision"; "recall"; "F1"]%string.

(** [try: pd.read_csv(...) except: pd.DataFrame(columns=col_names)], where
    [csv] is the table stored on disk, if any. *)
Definition load_graph_evaluation (csv : option dataframe) : dataframe :=
  match csv with
  | Some df => df
  | None => DataFrame col_names []
  end.

(** ** The script *)

Section Script.
Context `{RandomLib} `{Networkx}.

(** The inputs: the two unpickled graphs, the target, the trial budget
    (1000 in the script) and the seed (42 in the script). *)
Variables (g_true g_est : DiGraph) (target : node) (mc seed : Z).

(** The state of the two module-level generators when the script starts. *)
Record world : Type := World { w_py : py_state; w_np : np_state }.

(** The variables the sampling loop reads and writes. *)
Record state : Type := State {
  py : py_state;
  npg : np_state;
  rng : gen_state;
  predictors : list node;
  d_seps_true : list bool;
  d_seps_est : list bool;
  k : Z
}.

(** What one trial draws. *)
Record sampled : Type := Sampled {
  s_predictors : list node;
  s_ind : Z;
  s_node : node;
  s_deconfounders : list node;
  s_card : Z;
  s_cond_set : gset node
}.

(** Line 56 and line 58. *)
Definition d : Z := Z.of_nat (length (nodes g_true)).
Definition n : Z := d - 1.

(** [list(g_true.nodes)], [.sort()], [.remove(target)] (lines 63-67 and
    89-93). *)
Definition fresh_predictors : result (list node) :=
  list_remove target (merge_sort String.le (nodes g_true)).

(** Lines 114-118: the nodes at the drawn positions. *)
Definition collect (deconfounders : list node) (indices : list Z) : result (gset node) :=
  for_each (λ (cond_set : gset node) ii,
              index ← getitem indices ii;
              x ← getitem deconfounders index;
              Ok ({[x]} ∪ cond_set))
           (range (Z.of_nat (length indices))) ∅.

(** Lines 89-118: the predictor and the conditioning set of a trial.
    [deconfounders] is the list object [predictors], so the removal of
    line 100 is seen through both names. *)
Definition sample_trial (s : state) : result (sampled * state) :=
  predictors0 ← fresh_predictors;
  '(ind, py') ← randint 0 (n - 1) (py s);
  node ← getitem predictors0 ind;
  deconfounders ← list_remove node predictors0;
  '(card, np') ← np_choice (range n) (probs n) (npg s);
  if card =? 0 then
    Ok (Sampled predictors0 ind node deconfounders card ∅,
        State py' np' (rng s) deconfounders (d_seps_true s) (d_seps_est s) (k s))
  else
    '(indices, rng') ← gen_choice (n - 1) card (rng s);
    cond_set ← collect deconfounders indices;
    Ok (Sampled predictors0 ind node deconfounders card cond_set,
        State py' np' rng' deconfounders (d_seps_true s) (d_seps_est s) (k s)).

(** Lines 108-109 and 119-120, the same two calls in both branches: the
    verdict of the true graph is appended before the estimated graph is
    queried. *)
Definition test_separation (sm : sampled) (s : state) : result state :=
  vt ← d_separated g_true {[s_node sm]} {[target]} (s_cond_set sm);
  let s1 := State (py s) (npg s) (rng s) (predictors s)
                  (d_seps_true s ++ [vt]) (d_seps_est s) (k s) in
  ve ← d_separated g_est {[s_node sm]} {[target]} (s_cond_set sm);
  Ok (State (py s1) (npg s1) (rng s1) (predictors s1)
            (d_seps_true s1) (d_seps_est s1 ++ [ve]) (k s1)).

(** The body of the [while] loop. *)
Definition trial (s : state) : result state :=
  '(sm, s1) ← sample_trial s;
  s2 ← test_separation sm s1;
  Ok (State (py s2) (npg s2) (rng s2) (predictors s2)
            (d_seps_true s2) (d_seps_est s2) (k s2 + 1)).

(** [while k < mc: ...]; [None] when the fuel does not reach the exit. *)
Fixpoint while_loop (fuel : nat) (s : state) : option (result state) :=
  if k s <? mc then
    match fuel with
    | O => None
    | S fuel' =>
        match trial s with
        | Ok s' => while_loop fuel' s'
        | Raise e => Some (Raise e)
        end
    end
  else Some (Ok s).

(** What the script leaves behind when it reaches its last line. *)
Record final : Type := Final {
  graph_evaluation : dataframe;
  f_state : state;
  f_counters : counters;
  d_separated_total : Z;
  d_connected_total : Z
}.

(** The script after argument parsing and unpickling; the seeding of lines
    73-75 replaces the generator states the script was started in. *)
Definition main (w : world) (csv : option dataframe) : option (result final) :=
  let graph_evaluation := load_graph_evaluation csv in
  match fresh_predictors with
  | Raise e => Some (Raise e)
  | Ok predictors0 =>
      let w1 := World (random_seed seed) (w_np w) in
      let w2 := World (w_py w1) (np_random_seed seed) in
      let rng0 := default_rng seed in
      let s0 := State (w_py w2) (w_np w2) rng0 predictors0 [] [] 0 in
      match while_loop (Z.to_nat mc) s0 with
      | None => None
      | Some (Raise e) => Some (Raise e)
      | Some (Ok s) =>
          match accumulate (d_seps_true s) (d_seps_est s) with
          | Raise e => Some (Raise e)
          | Ok c =>
              Some (Ok (Final graph_evaluation s c (tp c + fn c) (tn c + fp c)))
          end
      end
  end.


End Script.

(** ** Derived metrics *)

(** Modelled from the spec: the metrics derived from the counters once the
    trial budget is exhausted.  The script ends with the two totals of lines
    140-141; the quotients that fill the remaining columns of the evaluation
    table are not part of it.  [None] is the undefined value. *)
Module Metrics.






End Metrics.

(** ** Reference collaborators

    Small executable implementations of the two interfaces, on which the
    script can be run. *)

Module Reference.

(** A linear congruential step shared by the three generators. *)
Definition next (s : nat) : nat := ((s * 21 + 7) mod 64)%nat.

Definition ref_randint (a b : Z) (s : nat) : Z * nat :=
  (a + Z.of_nat s mod (b - a + 1), next s).

Definition ref_choice (p : list Q) (s : nat) : nat * nat :=
  ((s mod length p)%nat, next s).

(** The first [size] positions of [0 .. pop-1] read from a start that
    depends on the state. *)
Definition ref_sample (pop size : nat) (s : nat) : list nat * nat :=
  let r := (s mod pop)%nat in
  (take size (drop r (seq 0 pop) ++ take r (seq 0 pop)), next s).

(** A graph as a list of nodes and a list of directed edges. *)
Record dag : Set := Dag { dag_nodes : list node; dag_edges : list (node * node) }.

Definition ref_nodes (G : dag) : list node := remove_dups (dag_nodes G).

Definition parents (G : dag) (S : gset node) : gset node :=
  list_to_set ((λ e, e.1) <$> filter (λ e, e.2 ∈ S) (dag_edges G)).

Fixpoint ancestors (fuel : nat) (G : dag) (S : gset node) : gset node :=
  match fuel with
  | O => S
  | Datatypes.S fuel' => ancestors fuel' G (S ∪ parents G S)
  end.

(** The edges of the moral graph of the subgraph induced by [A]. *)
Definition moral_edges (G : dag) (A : gset node) : list (node * node) :=
  let E := filter (λ e, e.1 ∈ A ∧ e.2 ∈ A) (dag_edges G) in
  E ++ (e1 ← E; e2 ← E; if decide (e1.2 = e2.2) then [(e1.1, e2.1)] else []).

Definition neighbours (M : list (node * node)) (S : gset node) : gset node :=
  list_to_set (e ← M;
               (if decide (e.1 ∈ S) then [e.2] else [])
               ++ (if decide (e.2 ∈ S) then [e.1] else [])).

Fixpoint reach (fuel : nat) (M : list (node * node)) (z S : gset node) : gset node :=
  match fuel with
  | O => S
  | Datatypes.S fuel' => reach fuel' M z (S ∪ (neighbours M S ∖ z))
  end.

(** d-separation through the moralised ancestral graph. *)
Definition ref_d_separated (G : dag) (x y z : gset node) : result bool :=
  if decide (x ∪ y ∪ z ⊆ list_to_set (ref_nodes G)) then
    let A := ancestors (length (ref_nodes G)) G (x ∪ y ∪ z) in
    let M := moral_edges G A in
    Ok (bool_decide (reach (length (ref_nodes G)) M z (x ∖ z) ## y ∖ z))
  else Raise NodeNotFound.

(** The chain [A -> B -> C -> D] and the same graph with an added edge
    [A -> D]. *)
Definition chain : dag :=
  Dag ["A"; "B"; "C"; "D"]%string [("A", "B"); ("B", "C"); ("C", "D")]%string.
Definition chain_AD : dag :=
  Dag ["A"; "B"; "C"; "D"]%string
      [("A", "B"); ("B", "C"); ("C", "D"); ("A", "D")]%string.

End Reference.

(** * Properties *)

(** ** Exceptions and list operations *)

Lemma bind_Ok {A B} (m : result A) (f : A → result B) b :
  m ≫= f = Ok b ↔ ∃ a, m = Ok a ∧ f a = Ok b.
Proof.
  destruct m as [a|e]; simpl.
  - split; [intros Hf; by exists a | by intros (a' & [= <-] & Hf)].
  - split; [done | by intros (? & ? & _)].
Qed.

Lemma bind_Raise {A B} (m : result A) (f : A → result B) e :
  m = Raise e → m ≫= f = Raise e.
Proof. by intros ->. Qed.

Lemma is_Ok_Ok {A} (a : A) : is_Ok (Ok a).
Proof. by exists a. Qed.

Lemma not_is_Ok_Raise {A} e : ¬ is_Ok (@Raise A e).
Proof. by intros [a Ha]. Qed.

#[local] Hint Resolve is_Ok_Ok : core.

(** Splits a successful sequence of binds into its steps. *)
Ltac inv_bind H :=
  repeat match type of H with
  | _ ≫= _ = Ok _ =>
      let a := fresh "a" in
      let Ha := fresh "H" a in
      apply bind_Ok in H as (a & Ha & H)
  end.

Lemma getitem_nat {A} (l : list A) (i : nat) x :
  l !! i = Some x → getitem l (Z.of_nat i) = Ok x.
Proof.
  intros Hi. pose proof (lookup_lt_Some _ _ _ Hi) as Hlt. unfold getitem.
  destruct (Z.ltb_spec (Z.of_nat i) 0) as [?|_]; [lia|].
  destruct (Z.ltb_spec (Z.of_nat i) 0) as [?|_]; [lia|].
  destruct (Z.leb_spec (Z.of_nat (length l)) (Z.of_nat i)) as [?|_]; [lia|].
  simpl. by rewrite Nat2Z.id, Hi.
Qed.

Lemma getitem_nat_overflow {A} (l : list A) (i : nat) :
  (length l ≤ i)%nat → getitem l (Z.of_nat i) = Raise IndexError.
Proof.
  intros Hi. unfold getitem.
  destruct (Z.ltb_spec (Z.of_nat i) 0) as [?|_]; [lia|].
  destruct (Z.ltb_spec (Z.of_nat i) 0) as [?|_]; [lia|].
  destruct (Z.leb_spec (Z.of_nat (length l)) (Z.of_nat i)) as [_|?]; [done|lia].
Qed.

Lemma getitem_in_range {A} (l : list A) (i : Z) :
  0 ≤ i < Z.of_nat (length l) →
  ∃ x, getitem l i = Ok x ∧ l !! Z.to_nat i = Some x.
Proof.
  intros Hi. destruct (lookup_lt_is_Some_2 l (Z.to_nat i)) as [x Hx]; [lia|].
  exists x. split; [|done]. rewrite <- (Z2Nat.id i) by lia. by apply getitem_nat.
Qed.

Lemma list_remove_Ok `{EqDecision A} (x : A) (l r : list A) :
  list_remove x l = Ok r ↔ ∃ l1 l2, l = l1 ++ x :: l2 ∧ (x ∉ l1) ∧ r = l1 ++ l2.
Proof.
  revert r. induction l as [|y l IH]; intros r; simpl.
  - split; [done|]. intros (l1 & l2 & Hl & _). by destruct l1.
  - destruct (decide (x = y)) as [->|Hxy].
    + split.
      * intros [= <-]. exists [], l. split_and!; [done| |done]. apply not_elem_of_nil.
      * intros ([|z l1] & l2 & Hl & Hx & ->); simplify_eq/=; [done|].
        exfalso. apply Hx. left.
    + destruct (list_remove x l) as [r'|e] eqn:Hr.
      * split.
        -- intros [= <-]. destruct (proj1 (IH r') eq_refl) as (l1 & l2 & -> & Hx & ->).
           exists (y :: l1), l2. split_and!; [done| |done].
           rewrite not_elem_of_cons. done.
        -- intros ([|z l1] & l2 & Hl & Hx & ->); simplify_eq/=.
           f_equal. assert (Ok r' = Ok (l1 ++ l2)) as [= ->]; [|done].
           apply IH. exists l1, l2. split_and!; [done| |done].
           rewrite not_elem_of_cons in Hx. tauto.
      * split; [done|].
        intros ([|z l1] & l2 & Hl & Hx & ->); simplify_eq/=.
        assert (Raise e = Ok (l1 ++ l2)) as [=].
        apply IH. exists l1, l2. split_and!; [done| |done].
        rewrite not_elem_of_cons in Hx. tauto.
Qed.

Lemma list_remove_elem_of `{EqDecision A} (x : A) (l : list A) :
  x ∈ l → is_Ok (list_remove x l).
Proof.
  intros Hx. destruct (list_elem_of_split_l l x Hx) as (l1 & l2 & -> & Hl1).
  exists (l1 ++ l2). apply list_remove_Ok. by exists l1, l2.
Qed.

Lemma list_remove_not_elem_of `{EqDecision A} (x : A) (l : list A) :
  x ∉ l → list_remove x l = Raise ValueError.
Proof.
  induction l as [|y l IH]; simpl; [done|].
  rewrite not_elem_of_cons. intros [Hxy Hx].
  rewrite decide_False by done. by rewrite IH.
Qed.

(** What a removal from a list without duplicates leaves. *)
Lemma list_remove_NoDup `{EqDecision A} (x : A) (l r : list A) :
  NoDup l → list_remove x l = Ok r →
  NoDup r ∧ (x ∉ r) ∧ (∀ y, y ∈ r ↔ y ∈ l ∧ y ≠ x) ∧ length l = S (length r)
  ∧ (r `sublist_of` l).
Proof.
  intros Hnd (l1 & l2 & -> & Hx & ->)%list_remove_Ok.
  apply NoDup_app in Hnd as (Hl1 & Hl12 & [Hxl2 Hl2]%NoDup_cons).
  split_and!.
  - apply NoDup_app. split_and!; [done| |done].
    intros y Hy1 Hy2. apply (Hl12 y Hy1). by right.
  - rewrite elem_of_app. tauto.
  - intros y. rewrite !elem_of_app, elem_of_cons. split.
    + intros [Hy|Hy]; (split; [tauto|]); intros ->; tauto.
    + tauto.
  - rewrite !length_app. simpl. lia.
  - apply sublist_app; [done|]. by apply sublist_cons.
Qed.

(** ** The confusion aggregator *)

(** The trials on which the two verdicts are equal, and those on which they
    differ. *)
Fixpoint agreements (l1 l2 : list bool) : Z :=
  match l1, l2 with
  | a :: l1', b :: l2' => (if bool_decide (a = b) then 1 else 0) + agreements l1' l2'
  | _, _ => 0
  end.

Fixpoint disagreements (l1 l2 : list bool) : Z :=
  match l1, l2 with
  | a :: l1', b :: l2' => (if bool_decide (a = b) then 0 else 1) + disagreements l1' l2'
  | _, _ => 0
  end.

Lemma agreements_disagreements l1 l2 :
  (length l1 ≤ length l2)%nat →
  0 ≤ agreements l1 l2 ∧ 0 ≤ disagreements l1 l2
  ∧ agreements l1 l2 + disagreements l1 l2 = Z.of_nat (length l1).
Proof.
  revert l2. induction l1 as [|a l1 IH]; intros [|b l2] Hlen; simpl in *; try lia.
  specialize (IH l2 ltac:(lia)). case_bool_decide; lia.
Qed.


(** The list object is never the singleton [True]. *)
Lemma list_is_not_True l : is_True (PyList l) = false.
Proof. done. Qed.

(** One pass through the body of the loop: whatever the verdicts are, only
    [tn] or [fp] moves. *)
Lemma classify_nat dt de c (i : nat) a b :
  dt !! i = Some a → de !! i = Some b →
  classify dt de c (Z.of_nat i)
  = Ok (if bool_decide (a = b) then Counters (tp c) (tn c + 1) (fp c) (fn c)
        else Counters (tp c) (tn c) (fp c + 1) (fn c)).
Proof.
  intros Ha Hb. unfold classify.
  rewrite (getitem_nat _ _ _ Ha), (getitem_nat _ _ _ Hb).
  cbn [mbind result_bind]. rewrite list_is_not_True. by case_bool_decide.
Qed.

(** The loop of line 128 from index [i] on, over the remaining verdicts. *)
Lemma accumulate_from dt de : ∀ (lt le : list bool) (i : nat) (c : counters),
  drop i dt = lt → drop i de = le → (length lt ≤ length le)%nat →
  for_each (classify dt de) (Z.of_nat <$> seq i (length lt)) c
  = Ok (Counters (tp c) (tn c + agreements lt le) (fp c + disagreements lt le) (fn c)).
Proof.
  induction lt as [|a lt IH]; intros le i c Ht He Hlen.
  - simpl. destruct c, le; simpl; do 2 f_equal; lia.
  - destruct le as [|b le]; simpl in Hlen; [lia|].
    assert (dt !! i = Some a) as Ha.
    { rewrite <- (Nat.add_0_r i), <- lookup_drop, Ht. done. }
    assert (de !! i = Some b) as Hb.
    { rewrite <- (Nat.add_0_r i), <- lookup_drop, He. done. }
    assert (drop (S i) dt = lt) as Ht'.
    { rewrite (drop_S _ _ _ Ha) in Ht. congruence. }
    assert (drop (S i) de = le) as He'.
    { rewrite (drop_S _ _ _ Hb) in He. congruence. }
    cbn [length seq fmap list_fmap for_each].
    rewrite (classify_nat _ _ _ _ _ _ Ha Hb). cbn [mbind result_bind].
    rewrite (IH le (S i) _ Ht' He') by lia. cbn [agreements disagreements].
    case_bool_decide; cbn [tp tn fp fn]; do 2 f_equal; lia.
Qed.

Lemma accumulate_Ok dt de :
  (length dt ≤ length de)%nat →
  accumulate dt de = Ok (Counters 0 (agreements dt de) (disagreements dt de) 0).
Proof.
  intros Hlen. unfold accumulate, range. rewrite Nat2Z.id.
  by rewrite (accumulate_from dt de dt de 0 counters_zero).
Qed.

(** With fewer estimated verdicts than true ones the loop runs off the
    shorter list. *)
Lemma accumulate_short_from dt de : ∀ (m i : nat) (c : counters),
  (i ≤ length de < i + m)%nat → (i + m ≤ length dt)%nat →
  for_each (classify dt de) (Z.of_nat <$> seq i m) c = Raise IndexError.
Proof.
  induction m as [|m IH]; intros i c Hde Hdt; [lia|].
  cbn [seq fmap list_fmap for_each].
  destruct (lookup_lt_is_Some_2 dt i) as [a Ha]; [lia|].
  destruct (decide (i = length de)) as [->|Hne].
  - unfold classify. rewrite (getitem_nat _ _ _ Ha). cbn [mbind result_bind].
    by rewrite getitem_nat_overflow.
  - destruct (lookup_lt_is_Some_2 de i) as [b Hb]; [lia|].
    rewrite (classify_nat _ _ _ _ _ _ Ha Hb). cbn [mbind result_bind].
    apply IH; lia.
Qed.

Lemma accumulate_short dt de :
  (length de < length dt)%nat → accumulate dt de = Raise IndexError.
Proof.
  intros Hlen. unfold accumulate, range. rewrite Nat2Z.id.
  apply accumulate_short_from; lia.
Qed.

(** ** The cardinality distribution *)

Lemma binom_above m : ∀ k, (m < k)%nat → binom m k = 0%nat.
Proof.
  induction m as [|m IH]; intros [|k] Hk; simpl; try lia.
  rewrite !IH by lia. done.
Qed.



(** [f 0 + ... + f (k - 1)] *)
Fixpoint sum_upto (f : nat → nat) (k : nat) : nat :=
  match k with
  | O => 0
  | S k' => sum_upto f k' + f k'
  end.

Lemma sum_upto_shift f k : (sum_upto f (S k) = f 0%nat + sum_upto (λ i, f (S i)) k)%nat.
Proof. induction k as [|k IH]; [simpl; lia|]. cbn [sum_upto] in *. lia. Qed.

Lemma sum_upto_plus f g k :
  (sum_upto (λ i, f i + g i) k = sum_upto f k + sum_upto g k)%nat.
Proof. induction k as [|k IH]; simpl; lia. Qed.

(** The row sums of Pascal's triangle. *)
Lemma sum_binom m : sum_upto (binom m) (S m) = (2 ^ m)%nat.
Proof.
  induction m as [|m IH]; [done|].
  rewrite sum_upto_shift. cbn [binom].
  rewrite (sum_upto_plus (binom m) (λ i, binom m (S i))), IH.
  pose proof (sum_upto_shift (binom m) (S m)) as Hs.
  cbn [sum_upto] in Hs. cbn [sum_upto] in IH. rewrite IH in Hs.
  rewrite binom_above in Hs by lia. cbn [sum_upto].
  rewrite (binom_above m (S m)) by lia.
  assert (binom m 0 = 1%nat) as H0 by (by destruct m).
  rewrite H0 in Hs. rewrite Nat.pow_succ_r'. lia.
Qed.

Lemma comb_nat (m i : nat) : comb (Z.of_nat m) (Z.of_nat i) = Z.of_nat (binom m i).
Proof.
  unfold comb.
  destruct (Z.ltb_spec (Z.of_nat m) 0); [lia|].
  destruct (Z.ltb_spec (Z.of_nat i) 0); [lia|].
  destruct (Z.ltb_spec (Z.of_nat m) (Z.of_nat i)); simpl.
  - rewrite binom_above by lia. done.
  - by rewrite !Nat2Z.id.
Qed.

Lemma comb_nonneg N k : 0 ≤ comb N k.
Proof. unfold comb. destruct (_ || _); lia. Qed.

(** [probs] for [m + 1] predictors, over natural numbers. *)
Lemma probs_succ (m : nat) :
  probs (Z.of_nat m + 1)
  = (λ i : nat, inject_Z (Z.of_nat (binom m i)) / inject_Z (2 ^ Z.of_nat m))%Q
      <$> seq 0 (S m).
Proof.
  unfold probs, range. replace (Z.of_nat m + 1 - 1) with (Z.of_nat m) by lia.
  replace (Z.to_nat (Z.of_nat m + 1)) with (S m) by lia.
  rewrite <- list_fmap_compose. apply list_fmap_ext. intros _ i _. simpl.
  by rewrite comb_nat.
Qed.

Lemma length_probs n : length (probs n) = Z.to_nat n.
Proof. unfold probs, range. by rewrite !length_fmap, length_seq. Qed.

Lemma sumQ_app p1 p2 : (sumQ (p1 ++ p2) == sumQ p1 + sumQ p2)%Q.
Proof.
  induction p1 as [|q p1 IH]; simpl; [by rewrite Qplus_0_l|].
  rewrite IH. ring.
Qed.

Lemma sumQ_scaled (f : nat → nat) (c : Q) (k : nat) :
  (sumQ ((λ i, inject_Z (Z.of_nat (f i)) / c) <$> seq 0 k)
   == inject_Z (Z.of_nat (sum_upto f k)) / c)%Q.
Proof.
  induction k as [|k IH].
  - simpl. unfold Qdiv. by rewrite Qmult_0_l.
  - rewrite seq_S, fmap_app, sumQ_app, IH. cbn [sum_upto].
    rewrite Nat2Z.inj_add, inject_Z_plus. simpl. unfold Qdiv. ring.
Qed.

Lemma pow2_Q_nonzero (m : nat) : ¬ (inject_Z (2 ^ Z.of_nat m) == 0)%Q.
Proof.
  assert (0 < 2 ^ Z.of_nat m) by (apply Z.pow_pos_nonneg; lia).
  unfold Qeq. simpl. lia.
Qed.

Lemma sumQ_probs_succ (m : nat) : (sumQ (probs (Z.of_nat m + 1)) == 1)%Q.
Proof.
  rewrite probs_succ, sumQ_scaled, sum_binom.
  rewrite Nat2Z.inj_pow. change (Z.of_nat 2) with 2.
  apply Qmult_inv_r, pow2_Q_nonzero.
Qed.

Lemma probs_nonneg n : Forall (λ q, (0 <= q)%Q) (probs n).
Proof.
  unfold probs. apply Forall_fmap, Forall_forall. intros i _. simpl.
  unfold Qdiv. apply Qmult_le_0_compat.
  - change 0%Q with (inject_Z 0). rewrite <- Zle_Qle. apply comb_nonneg.
  - apply Qinv_le_0_compat. change 0%Q with (inject_Z 0). rewrite <- Zle_Qle.
    apply Z.pow_nonneg. lia.
Qed.

(** ** The random draws *)

Section RandomFacts.
Context `{RandomLib}.

Lemma randint_inv a b s v s' :
  randint a b s = Ok (v, s') → a ≤ b ∧ a ≤ v ≤ b ∧ randint_draw a b s = (v, s').
Proof.
  unfold randint. destruct (Z.ltb_spec b a) as [?|Hab]; [done|].
  intros [= Hd]. pose proof (randint_draw_range a b s Hab) as Hr.
  rewrite Hd in Hr. done.
Qed.

Lemma randint_total a b s : a ≤ b → is_Ok (randint a b s).
Proof.
  intros Hab. unfold randint. destruct (Z.ltb_spec b a) as [?|_]; [lia|]. eauto.
Qed.

Lemma randint_empty a b s : b < a → randint a b s = Raise ValueError.
Proof. intros Hab. unfold randint. destruct (Z.ltb_spec b a); [done|lia]. Qed.

Lemma range_lookup n (i : nat) : (i < Z.to_nat n)%nat → range n !! i = Some (Z.of_nat i).
Proof.
  intros Hi. unfold range. rewrite list_lookup_fmap, lookup_seq_lt by done. done.
Qed.

Lemma length_range n : length (range n) = Z.to_nat n.
Proof. unfold range. by rewrite length_fmap, length_seq. Qed.

(** A draw of the cardinality is one of [0 .. n-1]. *)
Lemma np_choice_range_inv n p s card s' :
  np_choice (range n) p s = Ok (card, s') →
  0 ≤ card ≤ n - 1 ∧ (sumQ p == 1)%Q ∧ length p = Z.to_nat n.
Proof.
  unfold np_choice. case_bool_decide as Hne; [done|].
  case_bool_decide as Hlen; [|done]. simpl.
  destruct (forallb (Qle_bool 0) p); [|done]. simpl.
  destruct (Qeq_bool (sumQ p) 1) eqn:Hsum; [|done]. simpl.
  destruct (choice_draw p s) as [i s1] eqn:Hd.
  intros (x & Hx & [= <- <-])%bind_Ok.
  rewrite length_range in Hlen.
  assert (p ≠ []) as Hp.
  { intros ->. apply Hne. apply length_zero_iff_nil. by rewrite length_range, Hlen. }
  pose proof (choice_draw_range p s Hp) as Hi. rewrite Hd in Hi. simpl in Hi.
  rewrite (getitem_nat _ _ _ (range_lookup n i ltac:(lia))) in Hx.
  injection Hx as <-. split_and!; [lia|lia| by apply Qeq_bool_iff | done].
Qed.

Lemma np_choice_probs_total n s : 1 ≤ n → is_Ok (np_choice (range n) (probs n) s).
Proof.
  intros Hn. unfold np_choice.
  rewrite bool_decide_false.
  2:{ intros Hnil%(f_equal length). rewrite length_range in Hnil. simpl in Hnil. lia. }
  rewrite bool_decide_true by (by rewrite length_range, length_probs). simpl.
  assert (forallb (Qle_bool 0) (probs n) = true) as ->.
  { apply forallb_forall. intros q Hq%list_elem_of_In. apply Qle_bool_iff.
    by apply (proj1 (Forall_forall _ _) (probs_nonneg n)). }
  assert (Qeq_bool (sumQ (probs n)) 1 = true) as ->.
  { apply Qeq_bool_iff. replace n with (Z.of_nat (Z.to_nat (n - 1)) + 1) by lia.
    apply sumQ_probs_succ. }
  simpl. destruct (choice_draw (probs n) s) as [i s1] eqn:Hd.
  assert (probs n ≠ []) as Hp.
  { intros Hnil%(f_equal length). rewrite length_probs in Hnil. simpl in Hnil. lia. }
  pose proof (choice_draw_range _ s Hp) as Hi. rewrite Hd, length_probs in Hi.
  simpl in Hi. rewrite (getitem_nat _ _ _ (range_lookup n i Hi)). simpl. eauto.
Qed.

(** A draw without replacement: that many distinct positions of the
    population. *)
Lemma gen_choice_inv pop size s indices s' :
  gen_choice pop size s = Ok (indices, s') →
  0 ≤ size ≤ pop
  ∧ ∃ l : list nat, indices = Z.of_nat <$> l ∧ length l = Z.to_nat size
      ∧ NoDup l ∧ Forall (λ i, (i < Z.to_nat pop)%nat) l.
Proof.
  unfold gen_choice.
  destruct (Z.ltb_spec pop 0); [done|]. destruct (Z.ltb_spec size 0); [done|].
  destruct (Z.ltb_spec pop size); [done|]. simpl.
  destruct (sample_draw _ _ s) as [l s1] eqn:Hd. intros [= <- <-].
  destruct (sample_draw_spec (Z.to_nat pop) (Z.to_nat size) s ltac:(lia))
    as (Hlen & Hnd & Hall).
  rewrite Hd in Hlen, Hnd, Hall. split; [lia|]. by exists l.
Qed.

Lemma gen_choice_total pop size s : 0 ≤ size ≤ pop → is_Ok (gen_choice pop size s).
Proof.
  intros Hs. unfold gen_choice.
  destruct (Z.ltb_spec pop 0); [lia|]. destruct (Z.ltb_spec size 0); [lia|].
  destruct (Z.ltb_spec pop size); [lia|]. simpl.
  destruct (sample_draw _ _ s). eauto.
Qed.
End RandomFacts.

(** ** Loops over positions *)

(** [for ii in range(len(l)): x = l[ii]; ...] visits the elements of [l] in
    order. *)
Lemma for_each_positions {A S} (f : S → A → result S) (l : list A) :
  ∀ (l2 : list A) (i : nat) (acc : S),
  drop i l = l2 →
  for_each (λ acc ii, x ← getitem l ii; f acc x) (Z.of_nat <$> seq i (length l2)) acc
  = for_each f l2 acc.
Proof.
  induction l2 as [|a l2 IH]; intros i acc Hd; [done|].
  assert (l !! i = Some a) as Ha.
  { rewrite <- (Nat.add_0_r i), <- lookup_drop, Hd. done. }
  cbn [length seq fmap list_fmap for_each].
  rewrite (getitem_nat _ _ _ Ha). cbn [mbind result_bind].
  destruct (f acc a) as [acc'|e]; [|done]. cbn [mbind result_bind].
  apply IH. rewrite (drop_S _ _ _ Ha) in Hd. congruence.
Qed.

Lemma for_each_range_getitem {A S} (f : S → A → result S) (l : list A) (acc : S) :
  for_each (λ acc ii, x ← getitem l ii; f acc x) (range (Z.of_nat (length l))) acc
  = for_each f l acc.
Proof. unfold range. rewrite Nat2Z.id. by apply for_each_positions. Qed.

Lemma StronglySorted_sublist {A} (R : relation A) (l1 l2 : list A) :
  l1 `sublist_of` l2 → StronglySorted R l2 → StronglySorted R l1.
Proof.
  induction 1 as [|x l1 l2 Hsub IH|x l1 l2 Hsub IH]; intros Hs.
  - constructor.
  - apply StronglySorted_inv in Hs as [Hs Hall]. constructor; [by apply IH|].
    rewrite Forall_forall in *. intros y Hy. apply Hall.
    by apply (sublist_subseteq _ _ Hsub).
  - apply StronglySorted_inv in Hs as [Hs _]. by apply IH.
Qed.

(** Distinct positions of a list without duplicates hold distinct elements. *)
Lemma lookups_NoDup {A} (l : list A) (ixs : list nat) (xs : list A) :
  NoDup l → NoDup ixs → Forall2 (λ i x, l !! i = Some x) ixs xs → NoDup xs.
Proof.
  intros Hl His Hf. induction Hf as [|i x ixs xs Hi Hf IH]; [constructor|].
  apply NoDup_cons in His as [Hni His]. constructor; [|by apply IH].
  intros (j & Hj)%list_elem_of_lookup.
  destruct (Forall2_lookup_r _ _ _ _ _ Hf Hj) as (i' & Hi' & Hl').
  assert (i = i') as -> by exact (NoDup_lookup l i i' x Hl Hi Hl').
  apply Hni. by eapply list_elem_of_lookup_2.
Qed.

(** ** The sampler *)

Lemma getitem_inv {A} (l : list A) (i : Z) x :
  getitem l i = Ok x → 0 ≤ i → i < Z.of_nat (length l) ∧ l !! Z.to_nat i = Some x.
Proof.
  unfold getitem. intros Hg Hi.
  destruct (Z.ltb_spec i 0) as [?|_]; [lia|].
  destruct (Z.ltb_spec i 0) as [?|_]; [lia|].
  destruct (Z.leb_spec (Z.of_nat (length l)) i) as [?|?]; [done|]. simpl in Hg.
  destruct (l !! Z.to_nat i) eqn:Hl; [|done]. by injection Hg as ->.
Qed.

(** The loop of lines 115-118 over positions [ixs] of [deconfounders]. *)
Lemma collect_loop_inv (deconfounders : list node) (ixs : list nat) :
  ∀ (acc r : gset node),
  for_each (λ (cond_set : gset node) index,
              x ← getitem deconfounders index; Ok ({[x]} ∪ cond_set))
           (Z.of_nat <$> ixs) acc = Ok r →
  ∃ xs, Forall2 (λ i x, deconfounders !! i = Some x) ixs xs ∧ r = list_to_set xs ∪ acc.
Proof.
  induction ixs as [|i ixs IH]; intros acc r Hr.
  - injection Hr as <-. exists []. split; [constructor|set_solver].
  - cbn [fmap list_fmap for_each] in Hr. apply bind_Ok in Hr as (acc' & Hacc & Hr).
    apply bind_Ok in Hacc as (x & Hx & [= <-]).
    apply getitem_inv in Hx as [_ Hx]; [|lia]. rewrite Nat2Z.id in Hx.
    destruct (IH _ _ Hr) as (xs & Hxs & ->).
    exists (x :: xs). split; [by constructor|set_solver].
Qed.

Lemma collect_loop_total (deconfounders : list node) (ixs : list nat) :
  Forall (λ i, (i < length deconfounders)%nat) ixs →
  ∀ acc : gset node,
  is_Ok (for_each (λ (cond_set : gset node) index,
                     x ← getitem deconfounders index; Ok ({[x]} ∪ cond_set))
                  (Z.of_nat <$> ixs) acc).
Proof.
  induction 1 as [|i ixs Hi _ IH]; intros acc; [by eexists|].
  cbn [fmap list_fmap for_each].
  destruct (lookup_lt_is_Some_2 deconfounders i Hi) as [x Hx].
  rewrite (getitem_nat _ _ _ Hx). cbn [mbind result_bind]. apply IH.
Qed.

Lemma collect_unfold deconfounders indices :
  collect deconfounders indices
  = for_each (λ (cond_set : gset node) index,
                x ← getitem deconfounders index; Ok ({[x]} ∪ cond_set))
             indices ∅.
Proof.
  unfold collect.
  apply (for_each_range_getitem
           (λ (cond_set : gset node) index,
              x ← getitem deconfounders index; Ok ({[x]} ∪ cond_set))).
Qed.

Lemma collect_inv deconfounders (ixs : list nat) cond_set :
  collect deconfounders (Z.of_nat <$> ixs) = Ok cond_set →
  ∃ xs, Forall2 (λ i x, deconfounders !! i = Some x) ixs xs ∧ cond_set = list_to_set xs.
Proof.
  rewrite collect_unfold. intros (xs & Hxs & ->)%collect_loop_inv.
  exists xs. split; [done|set_solver].
Qed.

Lemma collect_total deconfounders (ixs : list nat) :
  Forall (λ i, (i < length deconfounders)%nat) ixs →
  is_Ok (collect deconfounders (Z.of_nat <$> ixs)).
Proof. intros Hall. rewrite collect_unfold. by apply collect_loop_total. Qed.

Section SamplerFacts.
Context `{RandomLib} `{Networkx}.
Variables (g_true : DiGraph) (target : node).

Lemma fresh_predictors_inv ps :
  fresh_predictors g_true target = Ok ps →
  target ∈ nodes g_true ∧ StronglySorted String.le ps ∧ NoDup ps ∧ (target ∉ ps)
  ∧ (∀ x, x ∈ ps ↔ x ∈ nodes g_true ∧ x ≠ target)
  ∧ Z.of_nat (length ps) = n g_true.
Proof.
  unfold fresh_predictors. intros Hr.
  pose proof (merge_sort_Permutation String.le (nodes g_true)) as Hperm.
  assert (NoDup (merge_sort String.le (nodes g_true))) as Hnd.
  { rewrite Hperm. apply nodes_NoDup. }
  destruct (list_remove_NoDup _ _ _ Hnd Hr) as (Hps & Hnt & Hin & Hlen & Hsub).
  split_and!; [| |done|done| |].
  - apply list_remove_Ok in Hr as (l1 & l2 & Hl & _).
    rewrite <- Hperm, Hl. set_solver.
  - eapply StronglySorted_sublist; [done|]. apply StronglySorted_merge_sort; apply _.
  - intros x. rewrite Hin, Hperm. done.
  - unfold n, d. apply Permutation_length in Hperm. lia.
Qed.

Lemma fresh_predictors_total :
  target ∈ nodes g_true → is_Ok (fresh_predictors g_true target).
Proof.
  intros Ht. apply list_remove_elem_of.
  by rewrite (merge_sort_Permutation String.le (nodes g_true)).
Qed.

Lemma fresh_predictors_missing :
  target ∉ nodes g_true → fresh_predictors g_true target = Raise ValueError.
Proof.
  intros Ht. apply list_remove_not_elem_of.
  by rewrite (merge_sort_Permutation String.le (nodes g_true)).
Qed.

End SamplerFacts.

Section TrialFacts.
Context `{RandomLib} `{Networkx}.
Variables (g_true g_est : DiGraph) (target : node).

(** What a trial has drawn when [sample_trial] returns. *)
Record sample_spec (s : state) (sm : sampled) (s' : state) : Prop := {
  sp_fresh : fresh_predictors g_true target = Ok (s_predictors sm);
  sp_randint : randint 0 (n g_true - 1) (py s) = Ok (s_ind sm, py s');
  sp_ind : 0 ≤ s_ind sm ≤ n g_true - 1;
  sp_node : s_predictors sm !! Z.to_nat (s_ind sm) = Some (s_node sm);
  sp_deconfounders :
    list_remove (s_node sm) (s_predictors sm) = Ok (s_deconfounders sm);
  sp_alias : predictors s' = s_deconfounders sm;
  sp_card : 0 ≤ s_card sm ≤ n g_true - 1;
  sp_empty : s_card sm = 0 → s_cond_set sm = ∅;
  sp_cond_set : ∃ (ixs : list nat) (xs : list node),
    length ixs = Z.to_nat (s_card sm) ∧ NoDup ixs
    ∧ Forall2 (λ i x, s_deconfounders sm !! i = Some x) ixs xs
    ∧ s_cond_set sm = list_to_set xs;
  sp_verdicts : d_seps_true s' = d_seps_true s ∧ d_seps_est s' = d_seps_est s;
  sp_k : k s' = k s
}.

Lemma sample_trial_inv s sm s' :
  sample_trial g_true target s = Ok (sm, s') → sample_spec s sm s'.
Proof.
  unfold sample_trial. intros Hs.
  apply bind_Ok in Hs as (ps & Hps & Hs).
  apply bind_Ok in Hs as ([ind py'] & Hind & Hs).
  apply bind_Ok in Hs as (x & Hx & Hs).
  apply bind_Ok in Hs as (dec & Hdec & Hs).
  apply bind_Ok in Hs as ([card np'] & Hcard & Hs).
  destruct (randint_inv _ _ _ _ _ Hind) as (_ & Hrange & _).
  apply getitem_inv in Hx as [_ Hx]; [|lia].
  destruct (np_choice_range_inv _ _ _ _ _ Hcard) as (Hc & _ & _).
  destruct (Z.eqb_spec card 0) as [->|Hne].
  - injection Hs as <- <-. split; simpl; try done.
    exists [], []. split_and!; [done|constructor|constructor|done].
  - apply bind_Ok in Hs as ([indices rng'] & Hg & Hs).
    apply bind_Ok in Hs as (cs & Hcs & [= <- <-]).
    destruct (gen_choice_inv _ _ _ _ _ Hg) as (_ & ixs & -> & Hlen & Hnd & _).
    destruct (collect_inv _ _ _ Hcs) as (xs & Hxs & ->).
    split; simpl; try done. by exists ixs, xs.
Qed.

Lemma sample_trial_total s :
  target ∈ nodes g_true → 2 ≤ d g_true → is_Ok (sample_trial g_true target s).
Proof.
  intros Ht Hd. unfold sample_trial.
  destruct (fresh_predictors_total g_true target Ht) as [ps Hps].
  rewrite Hps. cbn [mbind result_bind].
  destruct (fresh_predictors_inv _ _ _ Hps) as (_ & _ & Hnd & _ & _ & Hlen).
  destruct (randint_total 0 (n g_true - 1) (py s)) as [[ind py'] Hind];
    [unfold n; lia|].
  rewrite Hind. cbn [mbind result_bind].
  destruct (randint_inv _ _ _ _ _ Hind) as (_ & Hrange & _).
  destruct (getitem_in_range ps ind ltac:(lia)) as (x & Hx & Hlx).
  rewrite Hx. cbn [mbind result_bind].
  destruct (list_remove_elem_of x ps) as [dec Hdec];
    [by eapply list_elem_of_lookup_2|].
  rewrite Hdec. cbn [mbind result_bind].
  destruct (list_remove_NoDup _ _ _ Hnd Hdec) as (_ & _ & _ & Hlen' & _).
  destruct (np_choice_probs_total (n g_true) (npg s)) as [[card np'] Hcard];
    [unfold n; lia|].
  rewrite Hcard. cbn [mbind result_bind].
  destruct (np_choice_range_inv _ _ _ _ _ Hcard) as (Hc & _ & _).
  destruct (Z.eqb_spec card 0) as [->|Hne]; [eauto|].
  destruct (gen_choice_total (n g_true - 1) card (rng s)) as [[indices rng'] Hg];
    [lia|].
  rewrite Hg. cbn [mbind result_bind].
  destruct (gen_choice_inv _ _ _ _ _ Hg) as (_ & ixs & -> & _ & _ & Hall).
  destruct (collect_total dec ixs) as [cs Hcs].
  { eapply Forall_impl; [done|]. simpl. intros i Hi. lia. }
  rewrite Hcs. cbn [mbind result_bind]. eauto.
Qed.

(** Without a predictor the first draw of a trial fails. *)
Lemma sample_trial_no_predictor s :
  d g_true < 2 → ¬ is_Ok (sample_trial g_true target s).
Proof.
  intros Hd [[sm s'] Hs]. destruct (sample_trial_inv _ _ _ Hs) as [_ _ Hi _ _ _ _ _ _ _ _].
  unfold n in Hi. lia.
Qed.

End TrialFacts.

Section LoopFacts.
Context `{RandomLib} `{Networkx}.
Variables (g_true g_est : DiGraph) (target : node) (mc : Z).

(** The conditioning set of a trial, within the graph. *)
Lemma sample_spec_cond_set s sm s' :
  sample_spec g_true target s sm s' →
  s_node sm ∈ nodes g_true ∧ s_node sm ≠ target ∧ target ∈ nodes g_true
  ∧ (∀ x, x ∈ s_deconfounders sm ↔ x ∈ s_predictors sm ∧ x ≠ s_node sm)
  ∧ (∀ x, x ∈ s_predictors sm ↔ x ∈ nodes g_true ∧ x ≠ target)
  ∧ s_cond_set sm ⊆ list_to_set (s_deconfounders sm)
  ∧ Z.of_nat (size (s_cond_set sm)) = s_card sm
  ∧ Z.of_nat (length (s_deconfounders sm)) = n g_true - 1.
Proof.
  intros [Hps _ _ Hnode Hdec _ Hcard _ (ixs & xs & Hlen & Hnd & Hxs & Hcs) _ _].
  destruct (fresh_predictors_inv _ _ _ Hps) as (Ht & _ & Hpnd & _ & Hpin & Hplen).
  destruct (list_remove_NoDup _ _ _ Hpnd Hdec) as (Hdnd & _ & Hdin & Hdlen & _).
  apply list_elem_of_lookup_2 in Hnode. apply Hpin in Hnode as [Hn1 Hn2].
  split_and!; try done.
  - rewrite Hcs. intros x Hx%elem_of_list_to_set.
    apply elem_of_list_to_set.
    apply list_elem_of_lookup in Hx as (j & Hj).
    destruct (Forall2_lookup_r _ _ _ _ _ Hxs Hj) as (i & _ & Hi).
    by eapply list_elem_of_lookup_2.
  - rewrite Hcs, size_list_to_set by (by eapply lookups_NoDup).
    rewrite <- (Forall2_length _ _ _ Hxs), Hlen. lia.
  - lia.
Qed.

Lemma sample_spec_disjoint s sm s' :
  sample_spec g_true target s sm s' →
  s_cond_set sm ## {[s_node sm; target]}
  ∧ s_cond_set sm ⊆ list_to_set (nodes g_true)
  ∧ ({[s_node sm]} : gset node) ∪ {[target]} ∪ s_cond_set sm ⊆ list_to_set (nodes g_true).
Proof.
  intros Hsp.
  destruct (sample_spec_cond_set _ _ _ Hsp)
    as (Hn & Hnt & Ht & Hdin & Hpin & Hsub & _ & _).
  assert (∀ x, x ∈ s_cond_set sm → x ∈ nodes g_true ∧ x ≠ target ∧ x ≠ s_node sm)
    as Hall.
  { intros x Hx%Hsub%elem_of_list_to_set%Hdin. destruct Hx as [Hx%Hpin ?]. tauto. }
  split_and!.
  - intros x Hx [->%elem_of_singleton| ->%elem_of_singleton]%elem_of_union;
      apply Hall in Hx; tauto.
  - intros x Hx%Hall. apply elem_of_list_to_set. tauto.
  - intros x. rewrite !elem_of_union, !elem_of_singleton, elem_of_list_to_set.
    intros [[->| ->]|Hx%Hall]; tauto.
Qed.

Lemma test_separation_inv sm s s' :
  test_separation g_true g_est target sm s = Ok s' →
  ∃ vt ve,
    d_separated g_true {[s_node sm]} {[target]} (s_cond_set sm) = Ok vt
    ∧ d_separated g_est {[s_node sm]} {[target]} (s_cond_set sm) = Ok ve
    ∧ d_seps_true s' = d_seps_true s ++ [vt]
    ∧ d_seps_est s' = d_seps_est s ++ [ve]
    ∧ k s' = k s.
Proof.
  unfold test_separation. intros (vt & Hvt & (ve & Hve & [= <-])%bind_Ok)%bind_Ok.
  by exists vt, ve.
Qed.

Lemma trial_inv s s' :
  trial g_true g_est target s = Ok s' →
  ∃ sm s1 vt ve,
    sample_spec g_true target s sm s1
    ∧ d_separated g_true {[s_node sm]} {[target]} (s_cond_set sm) = Ok vt
    ∧ d_separated g_est {[s_node sm]} {[target]} (s_cond_set sm) = Ok ve
    ∧ d_seps_true s' = d_seps_true s ++ [vt]
    ∧ d_seps_est s' = d_seps_est s ++ [ve]
    ∧ k s' = k s + 1.
Proof.
  unfold trial. intros ([sm s1] & Hsm & (s2 & Hs2 & [= <-])%bind_Ok)%bind_Ok.
  apply sample_trial_inv in Hsm.
  destruct (test_separation_inv _ _ _ Hs2) as (vt & ve & Hvt & Hve & Ht & He & Hk).
  exists sm, s1, vt, ve. pose proof Hsm as [_ _ _ _ _ _ _ _ _ [Ht1 He1] Hk1].
  simpl. rewrite Ht, He, Hk, Ht1, He1, Hk1. done.
Qed.




End LoopFacts.

(** ** The sampling loop and the whole run *)

Section RunFacts.
Context `{RandomLib} `{Networkx}.
Variables (g_true g_est : DiGraph) (target : node) (mc seed : Z).

Notation trial := (trial g_true g_est target).
Notation while_loop := (while_loop g_true g_est target mc).
Notation main := (main g_true g_est target mc seed).

(** The state the loop is entered in (lines 73-80 and 87). *)
Definition seeded (predictors0 : list node) : state :=
  State (random_seed seed) (np_random_seed seed) (default_rng seed) predictors0 [] [] 0.

(** One verdict of each graph per completed trial. *)
Definition loop_inv (s : state) : Prop :=
  Z.of_nat (length (d_seps_true s)) = k s
  ∧ length (d_seps_est s) = length (d_seps_true s)
  ∧ k s ≤ Z.max 0 mc.

Lemma while_loop_ind (P : state → Prop) :
  (∀ s s', P s → k s < mc → trial s = Ok s' → P s') →
  ∀ fuel s s', P s → while_loop fuel s = Some (Ok s') → P s' ∧ mc ≤ k s'.
Proof.
  intros Hstep. induction fuel as [|fuel IH]; intros s s' HP; simpl;
    destruct (Z.ltb_spec (k s) mc) as [Hk|Hk]; try done.
  - intros [= <-]. done.
  - destruct (trial s) as [s1|e] eqn:Ht; [|done]. apply IH. by eapply Hstep.
  - intros [= <-]. done.
Qed.

Lemma while_loop_fuel fuel : ∀ s, mc - k s ≤ Z.of_nat fuel → while_loop fuel s ≠ None.
Proof.
  induction fuel as [|fuel IH]; intros s Hf; simpl;
    destruct (Z.ltb_spec (k s) mc) as [Hk|Hk]; try done; [lia|].
  destruct (trial s) as [s1|e] eqn:Ht; [|done].
  apply IH. destruct (trial_inv _ _ _ _ _ Ht) as (_ & _ & _ & _ & _ & _ & _ & _ & _ & ->).
  lia.
Qed.



Lemma loop_inv_step s s' : loop_inv s → k s < mc → trial s = Ok s' → loop_inv s'.
Proof.
  intros (Hlen & Heq & Hle) Hk (_ & _ & vt & ve & _ & _ & _ & Ht & He & Hk')%trial_inv.
  unfold loop_inv. rewrite Ht, He, Hk', !length_app, Heq. simpl. lia.
Qed.

Lemma while_loop_inv fuel s s' :
  loop_inv s → while_loop fuel s = Some (Ok s') →
  loop_inv s' ∧ mc ≤ k s'.
Proof. apply while_loop_ind, loop_inv_step. Qed.

Lemma main_inv w csv f :
  main w csv = Some (Ok f) →
  ∃ predictors0,
    fresh_predictors g_true target = Ok predictors0
    ∧ while_loop (Z.to_nat mc) (seeded predictors0) = Some (Ok (f_state f))
    ∧ accumulate (d_seps_true (f_state f)) (d_seps_est (f_state f)) = Ok (f_counters f)
    ∧ d_separated_total f = tp (f_counters f) + fn (f_counters f)
    ∧ d_connected_total f = tn (f_counters f) + fp (f_counters f)
    ∧ graph_evaluation f = load_graph_evaluation csv.
Proof.
  unfold main. destruct (fresh_predictors g_true target) as [ps|e]; [|done].
  simpl. fold (seeded ps).
  destruct (while_loop (Z.to_nat mc) (seeded ps)) as [[s|e]|] eqn:Hloop; [|done..].
  destruct (accumulate (d_seps_true s) (d_seps_est s)) as [c|e] eqn:Hc; [|done].
  intros [= <-]. exists ps. simpl. by rewrite Hc.
Qed.

(** The run does not depend on the fuel: it is always enough. *)
Lemma main_terminates w csv : main w csv ≠ None.
Proof.
  unfold main. destruct (fresh_predictors g_true target) as [ps|e]; [|done].
  simpl. fold (seeded ps).
  pose proof (while_loop_fuel (Z.to_nat mc) (seeded ps)) as Hf.
  destruct (while_loop (Z.to_nat mc) (seeded ps)) as [[s|e]|]; [|done|].
  - by destruct (accumulate (d_seps_true s) (d_seps_est s)).
  - exfalso. apply Hf; [simpl; lia|done].
Qed.

Lemma seeded_inv ps : loop_inv (seeded ps).
Proof. unfold loop_inv. simpl. lia. Qed.

(** The counters of a completed run. *)
Lemma main_counters w csv f :
  main w csv = Some (Ok f) →
  let dt := d_seps_true (f_state f) in
  let de := d_seps_est (f_state f) in
  f_counters f = Counters 0 (agreements dt de) (disagreements dt de) 0
  ∧ length de = length dt
  ∧ Z.of_nat (length dt) = Z.max 0 mc.
Proof.
  intros (ps & _ & Hloop & Hacc & _)%main_inv. simpl.
  destruct (while_loop_inv _ _ _ (seeded_inv ps) Hloop) as ((Hlen & Heq & Hle) & Hge).
  rewrite accumulate_Ok in Hacc by lia. injection Hacc as <-.
  split_and!; [done|done|lia].
Qed.


End RunFacts.

(** ** The reference collaborators satisfy their interfaces *)

Module ReferenceFacts.
Import Reference.

Lemma ref_randint_range a b s : a ≤ b → a ≤ (ref_randint a b s).1 ≤ b.
Proof.
  intros Hab. simpl. pose proof (Z.mod_pos_bound (Z.of_nat s) (b - a + 1)). lia.
Qed.

Lemma ref_choice_range (p : list Q) s : p ≠ [] → ((ref_choice p s).1 < length p)%nat.
Proof.
  intros Hp. simpl. apply Nat.mod_upper_bound. by destruct p.
Qed.

Lemma ref_sample_spec pop size s : (size ≤ pop)%nat →
  length (ref_sample pop size s).1 = size
  ∧ NoDup (ref_sample pop size s).1
  ∧ Forall (λ i, (i < pop)%nat) (ref_sample pop size s).1.
Proof.
  intros Hs. simpl. set (r := (s mod pop)%nat). set (l := seq 0 pop).
  assert (drop r l ++ take r l ≡ₚ l) as Hperm.
  { rewrite (comm (++)). by rewrite take_drop. }
  assert (length (drop r l ++ take r l) = pop) as Hlen.
  { rewrite Hperm. apply length_seq. }
  split_and!.
  - rewrite length_take. lia.
  - eapply sublist_NoDup; [|apply sublist_take]. rewrite Hperm. apply NoDup_seq.
  - apply Forall_take. rewrite Hperm. apply Forall_forall.
    intros i Hi%elem_of_seq. lia.
Qed.

#[export] Instance ref_random : RandomLib := {|
  py_state := nat;
  np_state := nat;
  gen_state := nat;
  random_seed := Z.abs_nat;
  np_random_seed := λ z, next (Z.abs_nat z);
  default_rng := λ z, next (next (Z.abs_nat z));
  randint_draw := ref_randint;
  randint_draw_range := ref_randint_range;
  choice_draw := ref_choice;
  choice_draw_range := ref_choice_range;
  sample_draw := ref_sample;
  sample_draw_spec := ref_sample_spec
|}.

Lemma ref_d_separated_unknown (G : dag) (x y z : gset node) :
  ¬ (x ∪ y ∪ z ⊆ list_to_set (ref_nodes G)) →
  ref_d_separated G x y z = Raise NodeNotFound.
Proof. intros Hun. unfold ref_d_separated. by rewrite decide_False. Qed.

Lemma ref_d_separated_known (G : dag) (x y z : gset node) :
  x ∪ y ∪ z ⊆ list_to_set (ref_nodes G) → x ## y → x ## z → y ## z →
  is_Ok (ref_d_separated G x y z).
Proof. intros Hk _ _ _. unfold ref_d_separated. rewrite decide_True by done. eauto. Qed.

#[export] Instance ref_networkx : Networkx := {|
  DiGraph := dag;
  nodes := ref_nodes;
  nodes_NoDup := λ G, NoDup_remove_dups (dag_nodes G);
  d_separated := ref_d_separated;
  d_separated_unknown := ref_d_separated_unknown;
  d_separated_known := ref_d_separated_known
|}.

(** The generator states a run is started in. *)
Definition ref_world : world := World (7%nat : py_state) (11%nat : np_state).

End ReferenceFacts.

(** ** The trials before a given one *)

Section Trials.
Context `{RandomLib} `{Networkx}.
Variables (g_true g_est : DiGraph) (target : node) (mc : Z).





End Trials.

(** * The claims *)

Import Reference ReferenceFacts.

(** C1: the classification convention asks for TP when both verdicts of a
    trial are "separated" and for FN when the true graph says "separated" and
    the estimated graph "connected".  The loop of line 128 tests
    [d_seps_true is True] on the list itself, so on such trials it counts TN
    and FP: the code does not follow the convention. *)
Theorem accumulate_breaks_convention :
  accumulate [true] [true] = Ok (Counters 0 1 0 0)
  ∧ accumulate_convention [true] [true] counters_zero = Counters 1 0 0 0
  ∧ accumulate [true] [false] = Ok (Counters 0 0 1 0)
  ∧ accumulate_convention [true] [false] counters_zero = Counters 0 0 0 1.
Proof. by split_and!. Qed.

Section Claims.
Context `{RandomLib} `{Networkx}.
Variables (g_true g_est : DiGraph) (target : node) (mc seed : Z).

(** C2: after a completed run with trial budget [mc], the four counters
    add up to [mc] and none of them is negative. *)
Theorem counters_sum_to_budget w csv f :
  main g_true g_est target mc seed w csv = Some (Ok f) → 0 ≤ mc →
  tp (f_counters f) + tn (f_counters f) + fp (f_counters f) + fn (f_counters f) = mc
  ∧ 0 ≤ tp (f_counters f) ∧ 0 ≤ tn (f_counters f)
  ∧ 0 ≤ fp (f_counters f) ∧ 0 ≤ fn (f_counters f).
Proof.
  intros Hm Hmc. destruct (main_counters _ _ _ _ _ _ _ _ Hm) as (-> & Heq & Hlen).
  simpl in *.
  pose proof (agreements_disagreements (d_seps_true (f_state f))
                (d_seps_est (f_state f)) ltac:(lia)).
  lia.
Qed.

(** C10: as the loop of line 128 is written, TP and FN stay at zero on
    every pair of verdict lists: a trial with equal verdicts adds to TN and
    any other trial adds to FP, whatever the verdicts are.  So after every
    completed run the total of separations is zero and the total of
    connections is the trial budget. *)
Theorem only_tn_and_fp_move w csv f :
  main g_true g_est target mc seed w csv = Some (Ok f) → 0 ≤ mc →
  (∀ dt de : list bool, (length dt ≤ length de)%nat →
     accumulate dt de = Ok (Counters 0 (agreements dt de) (disagreements dt de) 0))
  ∧ tp (f_counters f) = 0 ∧ fn (f_counters f) = 0
  ∧ tn (f_counters f)
    = agreements (d_seps_true (f_state f)) (d_seps_est (f_state f))
  ∧ fp (f_counters f)
    = disagreements (d_seps_true (f_state f)) (d_seps_est (f_state f))
  ∧ d_separated_total f = 0 ∧ d_connected_total f = mc.
Proof.
  intros Hm Hmc. split; [apply accumulate_Ok|].
  destruct (main_counters _ _ _ _ _ _ _ _ Hm) as (Hc & Heq & Hlen).
  destruct (main_inv _ _ _ _ _ _ _ _ Hm) as (_ & _ & _ & _ & -> & -> & _).
  rewrite Hc. simpl in *.
  pose proof (agreements_disagreements (d_seps_true (f_state f))
                (d_seps_est (f_state f)) ltac:(lia)).
  split_and!; try done; lia.
Qed.


End Claims.

Section SameGraph.
Context `{RandomLib} `{Networkx}.
Variables (g : DiGraph) (target : node) (mc seed : Z).



End SameGraph.

Section SamplerClaims.
Context `{RandomLib} `{Networkx}.
Variables (g_true : DiGraph) (target : node).

(** C3: the conditioning set of every sampled trial is disjoint from the
    predictor and the target, lies within the predictors other than the
    chosen one and so within the nodes of the graph, and has between 0 and
    [n - 1] elements: none when the drawn cardinality [c] is 0, and
    otherwise the [c] distinct deconfounders at [c] distinct positions. *)
Theorem conditioning_set_invariants s sm s' :
  sample_trial g_true target s = Ok (sm, s') →
  s_cond_set sm ## {[s_node sm; target]}
  ∧ s_cond_set sm ⊆ list_to_set (s_deconfounders sm)
  ∧ (∀ x, x ∈ s_deconfounders sm
          ↔ x ∈ nodes g_true ∧ x ≠ target ∧ x ≠ s_node sm)
  ∧ s_cond_set sm ⊆ list_to_set (nodes g_true)
  ∧ 0 ≤ Z.of_nat (size (s_cond_set sm)) ≤ n g_true - 1
  ∧ Z.of_nat (size (s_cond_set sm)) = s_card sm
  ∧ (s_card sm = 0 → s_cond_set sm = ∅)
  ∧ ∃ (ixs : list nat) (xs : list node),
      Z.of_nat (length ixs) = s_card sm ∧ NoDup ixs ∧ NoDup xs
      ∧ Forall (λ i, Z.of_nat i < n g_true - 1) ixs
      ∧ Forall2 (λ i x, s_deconfounders sm !! i = Some x) ixs xs
      ∧ s_cond_set sm = list_to_set xs.
Proof.
  intros Hsp%sample_trial_inv.
  destruct (sample_spec_cond_set _ _ _ _ _ Hsp)
    as (_ & _ & _ & Hdin & Hpin & Hsub & Hsize & Hdlen).
  destruct (sample_spec_disjoint _ _ _ _ _ Hsp) as (Hdis & Hnodes & _).
  pose proof Hsp as [Hps _ _ _ Hdec _ Hcard Hempty (ixs & xs & Hlen & Hnd & Hxs & Hcs) _ _].
  destruct (fresh_predictors_inv _ _ _ Hps) as (_ & _ & Hpnd & _).
  destruct (list_remove_NoDup _ _ _ Hpnd Hdec) as (Hdnd & _).
  split_and!; try done.
  - intros x. rewrite Hdin, Hpin. tauto.
  - lia.
  - lia.
  - exists ixs, xs. split_and!; try done.
    + lia.
    + by eapply lookups_NoDup.
    + apply Forall_forall. intros i (j & Hj)%list_elem_of_lookup.
      destruct (Forall2_lookup_l _ _ _ _ _ Hxs Hj) as (x & _ & Hx).
      apply lookup_lt_Some in Hx. lia.
Qed.



End SamplerClaims.



Section RunClaims.
Context `{RandomLib} `{Networkx}.
Variables (g_true g_est : DiGraph) (target : node) (mc seed : Z).



End RunClaims.

(** * The claims on concrete runs

    The script run on the chain [A -> B -> C -> D] with target [D], with the
    reference collaborators. *)

Local Open Scope string_scope.
Local Open Scope Z_scope.

(** The script with seed 42, started in [ref_world] with no table on disk. *)
Definition run_on (g_true g_est : dag) (target : node) (mc : Z) : option (result final) :=
  @main ref_random ref_networkx g_true g_est target mc 42 ref_world None.

(** The sampler on the chain with target [D]. *)
Definition sample_on (s : @state ref_random) : result (sampled * state) :=
  @sample_trial ref_random ref_networkx chain "D" s.

(** A state of the loop with the given list left in [predictors]. *)
Definition state_with (l : list node) : @state ref_random :=
  State 1%nat 2%nat 3%nat l [] [] 0.

Lemma counters_sum_to_budget_witness :
  match run_on chain_AD chain "D" 6 with
  | Some (Ok f) =>
      tp (f_counters f) + tn (f_counters f) + fp (f_counters f) + fn (f_counters f) = 6
      ∧ 0 ≤ tp (f_counters f) ∧ 0 ≤ tn (f_counters f)
      ∧ 0 ≤ fp (f_counters f) ∧ 0 ≤ fn (f_counters f)
  | _ => False
  end.
Proof.
  destruct (run_on chain_AD chain "D" 6) as [[f|e]|] eqn:Hm.
  - apply (@counters_sum_to_budget ref_random ref_networkx chain_AD chain "D" 6 42 ref_world None f Hm). lia.
  - vm_compute in Hm. discriminate.
  - vm_compute in Hm. discriminate.
Defined.

Lemma only_tn_and_fp_move_witness :
  match run_on chain_AD chain "D" 12 with
  | Some (Ok f) =>
      tp (f_counters f) = 0 ∧ fn (f_counters f) = 0
      ∧ d_separated_total f = 0 ∧ d_connected_total f = 12
  | _ => False
  end.
Proof.
  destruct (run_on chain_AD chain "D" 12) as [[f|e]|] eqn:Hm.
  - destruct (@only_tn_and_fp_move ref_random ref_networkx chain_AD chain "D" 12 42 ref_world None f Hm)
      as (_ & Htp & Hfn & _ & _ & Hsep & Hcon); [lia|].
    by split_and!.
  - vm_compute in Hm. discriminate.
  - vm_compute in Hm. discriminate.
Defined.


Lemma conditioning_set_invariants_witness :
  match sample_on (state_with []) with
  | Ok (sm, _) =>
      s_cond_set sm ## {[s_node sm; "D"]}
      ∧ s_cond_set sm ⊆ list_to_set (nodes chain)
      ∧ Z.of_nat (size (s_cond_set sm)) = s_card sm
      ∧ 0 ≤ Z.of_nat (size (s_cond_set sm)) ≤ n chain - 1
  | Raise _ => False
  end.
Proof.
  destruct (sample_on (state_with []))
    as [[sm s']|e] eqn:Hs.
  - destruct (@conditioning_set_invariants ref_random ref_networkx chain "D" _ sm s' Hs)
      as (Hdis & _ & _ & Hnodes & Hsize & Hcard & _).
    exact (conj Hdis (conj Hnodes (conj Hcard Hsize))).
  - vm_compute in Hs. discriminate.
Defined.







(** * Further properties of the script *)

Local Close Scope string_scope.

(** ** When the sampler and the run raise *)

Section Outcomes.
Context `{RandomLib} `{Networkx}.
Variables (g_true g_est : DiGraph) (target : node) (mc seed : Z).

Lemma sample_trial_raises s :
  ¬ (target ∈ nodes g_true ∧ 2 ≤ d g_true) →
  sample_trial g_true target s = Raise ValueError.
Proof.
  intros Hno. unfold sample_trial.
  destruct (decide (target ∈ nodes g_true)) as [Ht|Ht].
  - destruct (fresh_predictors_total g_true target Ht) as [ps ->].
    cbn [mbind result_bind]. rewrite randint_empty; [done|].
    destruct (Z.lt_ge_cases (d g_true) 2); [unfold n; lia|]. exfalso. apply Hno.
    split; [done|lia].
  - by rewrite (fresh_predictors_missing _ _ Ht).
Qed.




(** X1: the sampler of a trial succeeds exactly when the target is a node
    of the true graph and the graph has another node; in every other case
    it raises ValueError (from [list.remove] or from [random.randint]). *)
Theorem sample_trial_outcome s :
  (target ∈ nodes g_true ∧ 2 ≤ d g_true ↔ is_Ok (sample_trial g_true target s))
  ∧ (¬ (target ∈ nodes g_true ∧ 2 ≤ d g_true)
     ↔ sample_trial g_true target s = Raise ValueError).
Proof.
  split; split.
  - intros [Ht Hd]. by apply sample_trial_total.
  - intros [[sm s'] Hs]. destruct (decide (target ∈ nodes g_true ∧ 2 ≤ d g_true));
      [done|]. by rewrite sample_trial_raises in Hs.
  - apply sample_trial_raises.
  - intros Hr [Ht Hd]. destruct (sample_trial_total g_true target s Ht Hd) as [? Hs].
    congruence.
Qed.



End Outcomes.

(** ** The recorded verdicts *)

Section Verdicts.
Context `{RandomLib} `{Networkx}.
Variables (g_true g_est : DiGraph) (target : node) (mc seed : Z).

(** The two verdicts of one trial: the answers of the two graphs to one
    query, of a predictor against the target given a conditioning set. *)
Definition paired (vt ve : bool) : Prop :=
  ∃ (x : node) (z : gset node),
    x ∈ nodes g_true ∧ x ≠ target ∧ z ⊆ list_to_set (nodes g_true)
    ∧ z ## {[x; target]}
    ∧ d_separated g_true {[x]} {[target]} z = Ok vt
    ∧ d_separated g_est {[x]} {[target]} z = Ok ve.

Lemma paired_step (s s' : state) :
  Forall2 paired (d_seps_true s) (d_seps_est s) →
  trial g_true g_est target s = Ok s' →
  Forall2 paired (d_seps_true s') (d_seps_est s').
Proof.
  intros Hp (sm & s1 & vt & ve & Hsp & Hvt & Hve & -> & -> & _)%trial_inv.
  apply Forall2_app; [done|]. constructor; [|constructor].
  destruct (sample_spec_cond_set _ _ _ _ _ Hsp) as (Hn & Hnt & _).
  destruct (sample_spec_disjoint _ _ _ _ _ Hsp) as (Hdis & Hsub & _).
  by exists (s_node sm), (s_cond_set sm).
Qed.

(** X4: after a completed run the two lists of verdicts have one entry per
    trial, [max(0, mc)] each, and the entries at one position are the
    answers of the true graph and of the estimated graph to the same query:
    a predictor of the true graph other than the target, against the
    target, given a set of nodes of the true graph that holds neither. *)
Theorem verdicts_are_paired w csv f :
  main g_true g_est target mc seed w csv = Some (Ok f) →
  Forall2 paired (d_seps_true (f_state f)) (d_seps_est (f_state f))
  ∧ Z.of_nat (length (d_seps_true (f_state f))) = Z.max 0 mc
  ∧ Z.of_nat (length (d_seps_est (f_state f))) = Z.max 0 mc.
Proof.
  intros Hm. destruct (main_counters _ _ _ _ _ _ _ _ Hm) as (_ & Heq & Hlen).
  destruct (main_inv _ _ _ _ _ _ _ _ Hm) as (ps & _ & Hloop & _).
  simpl in *. split_and!; [|done|lia].
  destruct (while_loop_ind g_true g_est target mc
              (λ s, Forall2 paired (d_seps_true s) (d_seps_est s)))
    with (fuel := Z.to_nat mc) (s := seeded seed ps) (s' := f_state f)
    as [Hp _]; [by intros s s' Hs _; apply paired_step|constructor|done|done].
Qed.

End Verdicts.

(** ** The counters against the convention *)

Lemma accumulate_convention_totals dt : ∀ de c,
  let c' := accumulate_convention dt de c in
  tp c' + tn c' = tp c + tn c + agreements dt de
  ∧ fp c' + fn c' = fp c + fn c + disagreements dt de.
Proof.
  induction dt as [|a dt IH]; intros [|b de] c; simpl; try lia.
  destruct (IH de (classify_convention a b c)) as [H1 H2]. simpl in H1, H2.
  rewrite H1, H2. destruct a, b; simpl; lia.
Qed.

(** X5: whenever the loop of line 128 finishes, its TN is the number of
    trials that the convention counts as TP or TN, and its FP the number the
    convention counts as FP or FN: the counters of the script still tell
    agreement from disagreement, they only lose which verdict it was. *)
Theorem counters_merge_convention dt de c :
  accumulate dt de = Ok c →
  tn c = tp (accumulate_convention dt de counters_zero)
         + tn (accumulate_convention dt de counters_zero)
  ∧ fp c = fp (accumulate_convention dt de counters_zero)
           + fn (accumulate_convention dt de counters_zero)
  ∧ tp c = 0 ∧ fn c = 0.
Proof.
  intros Hc. destruct (le_lt_dec (length dt) (length de)) as [Hle|Hlt].
  - rewrite accumulate_Ok in Hc by done. injection Hc as <-. simpl.
    destruct (accumulate_convention_totals dt de counters_zero) as [H1 H2].
    simpl in H1, H2. lia.
  - by rewrite accumulate_short in Hc.
Qed.

(** X6: the loop of line 128 runs over the positions of [d_seps_true].  It
    finishes exactly when [d_seps_est] is at least as long, raises
    IndexError exactly when [d_seps_est] is shorter, and does not look at
    entries of [d_seps_est] beyond the length of [d_seps_true]. *)
Theorem accumulate_lengths dt de :
  ((length dt ≤ length de)%nat ↔ is_Ok (accumulate dt de))
  ∧ ((length de < length dt)%nat ↔ accumulate dt de = Raise IndexError)
  ∧ (∀ more, (length dt ≤ length de)%nat →
       accumulate dt (de ++ more) = accumulate dt (take (length dt) de)).
Proof.
  assert (∀ l1 l2 l3 : list bool, (length l1 ≤ length l2)%nat →
            agreements l1 (l2 ++ l3) = agreements l1 l2
            ∧ disagreements l1 (l2 ++ l3) = disagreements l1 l2) as Happ.
  { induction l1 as [|a l1 IH]; intros [|b l2] l3 Hl; simpl in *;
      try lia; try done.
    destruct (IH l2 l3 ltac:(lia)) as [-> ->]. done. }
  split_and!.
  - split.
    + intros Hle. rewrite accumulate_Ok by done. by eexists.
    + intros [c Hc]. destruct (le_lt_dec (length dt) (length de)); [done|].
      by rewrite accumulate_short in Hc.
  - split.
    + apply accumulate_short.
    + intros Hr. destruct (le_lt_dec (length dt) (length de)) as [Hle|]; [|done].
      by rewrite accumulate_Ok in Hr.
  - intros more Hle.
    rewrite !accumulate_Ok by (rewrite ?length_app, ?length_take; lia).
    destruct (Happ dt de more Hle) as [-> ->].
    destruct (Happ dt (take (length dt) de) (drop (length dt) de)) as [Ha Hd];
      [rewrite length_take; lia|].
    rewrite take_drop in Ha, Hd. by rewrite Ha, Hd.
Qed.

(** ** What a trial leaves in the state *)

Section TrialState.
Context `{RandomLib} `{Networkx}.
Variables (g_true g_est : DiGraph) (target : node) (mc seed : Z).

Lemma np_choice_range_draw m p s card s' :
  np_choice (range m) p s = Ok (card, s') →
  card = Z.of_nat (choice_draw p s).1 ∧ s' = (choice_draw p s).2.
Proof.
  intros Hc. destruct (np_choice_range_inv _ _ _ _ _ Hc) as (_ & _ & Hlen).
  revert Hc. unfold np_choice. case_bool_decide as Hne; [done|].
  case_bool_decide; [|done]. simpl.
  destruct (forallb (Qle_bool 0) p); [|done]. simpl.
  destruct (Qeq_bool (sumQ p) 1); [|done]. simpl.
  assert (p ≠ []) as Hp.
  { intros ->. apply Hne, length_zero_iff_nil. by rewrite length_range, <- Hlen. }
  pose proof (choice_draw_range p s Hp) as Hi.
  destruct (choice_draw p s) as [i s1]. simpl in *.
  rewrite (getitem_nat _ _ _ (range_lookup m i ltac:(lia))). simpl.
  by intros [= <- <-].
Qed.

Lemma gen_choice_draw pop size s indices s' :
  gen_choice pop size s = Ok (indices, s') →
  indices = Z.of_nat <$> (sample_draw (Z.to_nat pop) (Z.to_nat size) s).1
  ∧ s' = (sample_draw (Z.to_nat pop) (Z.to_nat size) s).2.
Proof.
  unfold gen_choice. destruct (_ || _); [done|].
  destruct (sample_draw _ _ s) as [l s1]. by intros [= <- <-].
Qed.

(** The generator states after the sampler. *)
Lemma sample_trial_streams s sm s1 :
  sample_trial g_true target s = Ok (sm, s1) →
  py s1 = (randint_draw 0 (n g_true - 1) (py s)).2
  ∧ npg s1 = (choice_draw (probs (n g_true)) (npg s)).2
  ∧ s_card sm = Z.of_nat (choice_draw (probs (n g_true)) (npg s)).1
  ∧ (s_card sm = 0 → rng s1 = rng s)
  ∧ (s_card sm ≠ 0 →
     rng s1 = (sample_draw (Z.to_nat (n g_true - 1)) (Z.to_nat (s_card sm)) (rng s)).2).
Proof.
  unfold sample_trial. intros Hs.
  apply bind_Ok in Hs as (ps & Hps & Hs).
  apply bind_Ok in Hs as ([ind py'] & Hind & Hs).
  apply bind_Ok in Hs as (x & Hx & Hs).
  apply bind_Ok in Hs as (dec & Hdec & Hs).
  apply bind_Ok in Hs as ([card np'] & Hcard & Hs).
  destruct (randint_inv _ _ _ _ _ Hind) as (_ & _ & Hdraw).
  destruct (np_choice_range_draw _ _ _ _ _ Hcard) as [Hc Hnp].
  destruct (Z.eqb_spec card 0) as [Hz|Hnz].
  - injection Hs as <- <-. simpl. rewrite Hdraw. by split_and!.
  - apply bind_Ok in Hs as ([indices rng'] & Hg & Hs).
    apply bind_Ok in Hs as (cs & Hcs & [= <- <-]).
    destruct (gen_choice_draw _ _ _ _ _ Hg) as [_ Hrng]. simpl. rewrite Hdraw.
    by split_and!.
Qed.

(** The separation calls change nothing but the verdicts and the counter. *)
Lemma trial_inv_state s s' :
  trial g_true g_est target s = Ok s' →
  ∃ sm s1,
    sample_trial g_true target s = Ok (sm, s1)
    ∧ py s' = py s1 ∧ npg s' = npg s1 ∧ rng s' = rng s1
    ∧ predictors s' = predictors s1 ∧ k s' = k s1 + 1.
Proof.
  unfold trial. intros ([sm s1] & Hsm & (s2 & Hs2 & [= <-])%bind_Ok)%bind_Ok.
  exists sm, s1. split; [done|]. unfold test_separation in Hs2.
  apply bind_Ok in Hs2 as (vt & _ & (ve & _ & [= <-])%bind_Ok). done.
Qed.

(** X7: a trial takes exactly one value from [random] and one from the
    global generator of [numpy.random]; it takes one draw from the generator
    object of [default_rng] when the drawn cardinality is not zero and
    leaves that generator untouched when it is zero.  The separation calls
    take none. *)
Theorem trial_consumes_streams s s' :
  trial g_true g_est target s = Ok s' →
  py s' = (randint_draw 0 (n g_true - 1) (py s)).2
  ∧ npg s' = (choice_draw (probs (n g_true)) (npg s)).2
  ∧ ((choice_draw (probs (n g_true)) (npg s)).1 = 0%nat → rng s' = rng s)
  ∧ ((choice_draw (probs (n g_true)) (npg s)).1 ≠ 0%nat →
     rng s' = (sample_draw (Z.to_nat (n g_true - 1))
                 (choice_draw (probs (n g_true)) (npg s)).1 (rng s)).2).
Proof.
  intros (sm & s1 & Hs & -> & -> & -> & _)%trial_inv_state.
  destruct (sample_trial_streams _ _ _ Hs) as (Hpy & Hnp & Hc & Hz & Hnz).
  split_and!; [done|done| |].
  - intros Hzero. apply Hz. lia.
  - intros Hpos. rewrite Hnz by lia. by rewrite Hc, Nat2Z.id.
Qed.


End TrialState.

(** ** The shape of the cardinality distribution *)




(** ** A graph with a single predictor *)


Section SinglePredictor.
Context `{RandomLib} `{Networkx}.
Variables (g_true g_est : DiGraph) (target : node) (mc seed : Z).


End SinglePredictor.

(** ** The further properties on concrete runs *)

Local Open Scope string_scope.
Local Open Scope Z_scope.



Lemma verdicts_are_paired_witness :
  match run_on chain_AD chain "D" 6 with
  | Some (Ok f) =>
      Forall2 (@paired ref_networkx chain_AD chain "D")
              (d_seps_true (f_state f)) (d_seps_est (f_state f))
      ∧ Z.of_nat (length (d_seps_true (f_state f))) = 6
  | _ => False
  end.
Proof.
  destruct (run_on chain_AD chain "D" 6) as [[f|e]|] eqn:Hm.
  - destruct (@verdicts_are_paired ref_random ref_networkx chain_AD chain "D" 6 42
                ref_world None f Hm) as (Hp & Hlen & _).
    split; [done|lia].
  - vm_compute in Hm. discriminate.
  - vm_compute in Hm. discriminate.
Defined.

Lemma counters_merge_convention_witness :
  ∃ c, accumulate [true; true; false; false] [true; false; true; false] = Ok c
       ∧ tn c = 2 ∧ fp c = 2 ∧ tp c = 0 ∧ fn c = 0.
Proof.
  exists (Counters 0 2 2 0). split; [done|].
  destruct (counters_merge_convention [true; true; false; false]
              [true; false; true; false] (Counters 0 2 2 0) eq_refl)
    as (Htn & Hfp & Htp & Hfn).
  by split_and!.
Defined.

Lemma trial_consumes_streams_witness :
  match @trial ref_random ref_networkx chain chain "D" (state_with []) with
  | Ok s' =>
      py s' = (ref_randint 0 2 1%nat).2
      ∧ npg s' = (ref_choice (probs 3) 2%nat).2
  | Raise _ => False
  end.
Proof.
  destruct (@trial ref_random ref_networkx chain chain "D" (state_with []))
    as [s'|e] eqn:Ht.
  - destruct (@trial_consumes_streams ref_random ref_networkx chain chain "D"
                (state_with []) s' Ht) as (Hpy & Hnp & _).
    split; [exact Hpy|exact Hnp].
  - vm_compute in Ht. discriminate.
Defined.



